(** * Renderer: serialisation and screenshots of pages in a headless browser

    A shallow embedding of [src/renderer.ts].  The two [async] methods of
    the [Renderer] class, [serialize] and [screenshot], are sequences of
    awaited calls on a Puppeteer page.  They are embedded as computations in
    a small monad that

    - reads the behaviour of the browser during one call (how every awaited
      promise settles, and the response events the page emits meanwhile),
    - threads the state the method mutates (its local [response] variable,
      the listener registered on the page, the pages left open) together
      with the trace of the operations performed, and
    - ends like the promise of an [async] function: fulfilled with a value
      or rejected with the error that was thrown. *)

From stdpp Require Import base option list strings gmap.
From Stdlib Require Import ZArith Ascii String.

Local Open Scope string_scope.
Local Open Scope Z_scope.

(** ** JavaScript values *)

(** A JavaScript number as the code meets it: [NaN], or an integer.  [Num z]
    stands for the number the engine holds for [z]: [z] itself up to 2^53 in
    absolute value, the nearest double or an infinity beyond, all of them
    other than zero and truthy.  [+0] and [-0] are both [Num 0]. *)
Inductive JSNumber :=
  | NaN
  | Num (z : Z).

(** [ToBoolean] on a number: [NaN] and zero are falsy. *)
Definition number_truthy (n : JSNumber) : bool :=
  match n with
  | NaN => false
  | Num z => negb (z =? 0)
  end.

(** [ToBoolean] on [number | undefined]. *)
Definition truthy (n : option JSNumber) : bool :=
  match n with
  | None => false
  | Some n => number_truthy n
  end.

(** White space skipped by [parseInt], among the code units below 256: tab,
    line feed, vertical tab, form feed, carriage return, space, no-break
    space. *)
Definition is_whitespace (c : ascii) : bool :=
  let n := N_of_ascii c in
  ((9 <=? n) && (n <=? 13) || (n =? 32) || (n =? 160))%N.

Fixpoint trim_start (s : string) : string :=
  match s with
  | String c s' => if is_whitespace c then trim_start s' else s
  | EmptyString => s
  end.

Definition digit_value (c : ascii) : option Z :=
  let n := Z.of_N (N_of_ascii c) in
  if (48 <=? n) && (n <=? 57) then Some (n - 48) else None.

(** The value of the longest prefix of decimal digits; [acc] is the value
    of the digits read so far, [None] before the first one. *)
Fixpoint parse_digits (s : string) (acc : option Z) : option Z :=
  match s with
  | String c s' =>
      match digit_value c with
      | Some d => parse_digits s' (Some (10 * default 0 acc + d))
      | None => acc
      end
  | EmptyString => acc
  end.

(** [parseInt(s, 10)]: leading white space is skipped, one sign is read,
    then the longest run of decimal digits; anything after it is ignored,
    and no digit at all gives [NaN].  The integer read is kept exact: it is
    the number the engine returns up to 2^53 in absolute value; beyond, the
    engine rounds it to a double, which [Num] does not follow. *)
Definition parseInt (s : string) : JSNumber :=
  let s := trim_start s in
  let '(sign, s) :=
    match s with
    | String "-" rest => (-1, rest)
    | String "+" rest => (1, rest)
    | _ => (1, s)
    end in
  match parse_digits s None with
  | None => NaN
  | Some m => Num (sign * m)
  end.

(** [x || ''] on [string | null]. *)
Definition or_empty (x : option string) : string :=
  match x with
  | Some (String c s) => String c s
  | _ => EmptyString
  end.

(** Values found in a screenshot options bag. *)
Inductive JSValue :=
  | VString (s : string)
  | VNumber (z : Z)
  | VBoolean (b : bool).

Definition Buffer := list Byte.byte.

(** ** The types of the module *)

Record SerializedResponse := {
  status : Z;
  content : string;
}.

Record ViewportDimensions := {
  width : Z;
  height : Z;
}.

Definition MOBILE_USERAGENT : string :=
  "Mozilla/5.0 (Linux; Android 8.0.0; Pixel 2 XL Build/OPD1.170816.004) AppleWebKit/537.36 (KHTML, like Gecko) Chrome/68.0.3440.75 Mobile Safari/537.36".

Module Config.
Record t := {
  width : Z;
  height : Z;
  timeout : Z;
}.
End Config.

Inductive ErrorType :=
  | Forbidden
  | NoResponse.

Definition ErrorType_string (t : ErrorType) : string :=
  match t with
  | Forbidden => "Forbidden"
  | NoResponse => "NoResponse"
  end.

(** [class ScreenshotError extends Error]. *)
Record ScreenshotError := {
  message : string;
  name : string;
  type : ErrorType;
}.

(** The constructor: [super(type)] sets the message,
    [this.constructor.name] is the name of the class. *)
Definition new_ScreenshotError (t : ErrorType) : ScreenshotError :=
  {| message := ErrorType_string t;
     name := "ScreenshotError";
     type := t |}.

(** ** Puppeteer *)

Module Puppeteer.

(** A [puppeteer.Response]: what [response.status()] returns, and the URL
    that tells two responses apart. *)
Record Response := {
  status : Z;
  url : string;
}.

(** An error thrown by the browser (time-out, DNS failure, protocol
    error, no element for a selector, ...). *)
Record Error := {
  reason : string;
}.

End Puppeteer.

Abbreviation Response := Puppeteer.Response.

(** What a method of [Renderer] can throw: an error of the browser that it
    does not catch, or its own [ScreenshotError]. *)
Inductive exn :=
  | BrowserError (e : Puppeteer.Error)
  | ScreenshotErr (e : ScreenshotError).

(** How a promise settles; [E] is the type of the errors it can be rejected
    with. *)
Inductive settled (E A : Type) :=
  | Fulfilled (a : A)
  | Rejected (e : E).
Arguments Fulfilled {E A} a.
Arguments Rejected {E A} e.

#[global] Instance settled_ret {E} : MRet (settled E) := λ A a, Fulfilled a.

#[global] Instance settled_bind {E} : MBind (settled E) := λ A B f s,
  match s with
  | Fulfilled a => f a
  | Rejected e => Rejected e
  end.

(** The rejection of a browser promise, as the awaiting method sees it. *)
Definition thrown {A} (s : settled Puppeteer.Error A) : settled exn A :=
  match s with
  | Fulfilled a => Fulfilled a
  | Rejected e => Rejected (BrowserError e)
  end.

(** An awaited browser operation: the response events the page emits while
    the promise is pending, and how the promise settles. *)
Record pending (A : Type) := {
  emits : list Response;
  settles : settled Puppeteer.Error A;
}.
Arguments emits {A} p.
Arguments settles {A} p.

(** The browser during one call of a method of [Renderer].  Every method
    calls each operation at most once, so one outcome for each is enough. *)
Record Browser := {
  (** [browser.newPage()] *)
  newPage : pending unit;
  (** [page.setViewport(..)] *)
  setViewport : pending unit;
  (** [page.goto(..)]: fulfilled with the navigation's response or [null] *)
  goto : pending (option Response);
  (** [page.$eval('meta[name="render:status_code"]', ..)]: rejected when no
      element matches; otherwise what [getAttribute('content')] returns on
      the first match, [None] for [null] *)
  meta_content : pending (option string);
  (** [page.evaluate(() => document.documentElement.outerHTML)] *)
  outerHTML : pending string;
  (** [page.screenshot(..)] *)
  capture : pending Buffer;
  (** [page.close()] *)
  close : pending unit;
}.

(** The operations a method performs, as they appear in its trace. *)
Inductive Call :=
  | NewPage
  | SetViewport (width height : Z) (isMobile : bool)
  | SetUserAgent (userAgent : string)
  | On (event : string)
  | Goto (url : string) (timeout : Z) (waitUntil : string)
  | Eval (selector : string)
  | Evaluate
  | Screenshot (options : gmap string JSValue)
  | Close
  | ConsoleError (msg : string).

(** ** State and monad *)

Record State := {
  (** operations performed so far, oldest first *)
  trace : list Call;
  (** pages opened and not closed *)
  open_pages : nat;
  (** the method's local variable [let response] *)
  response : option Response;
  (** the handler registered with [page.on('response', ..)], as its effect
      on the variable [response] it closes over *)
  listener : option (Response → option Response → option Response);
}.

Definition initial : State :=
  {| trace := []; open_pages := 0; response := None; listener := None |}.

Definition M (A : Type) : Type := Browser → State → settled exn A * State.

#[global] Instance M_ret : MRet M := λ A a _ σ, (Fulfilled a, σ).

#[global] Instance M_bind : MBind M := λ A B f m b σ,
  match m b σ with
  | (Fulfilled a, σ') => f a b σ'
  | (Rejected e, σ') => (Rejected e, σ')
  end.

Definition throw {A} (e : exn) : M A := λ _ σ, (Rejected e, σ).

(** [try { m } catch (e) { h e }]: what [m] did to the state before it
    threw stays done. *)
Definition try_catch {A} (m : M A) (h : exn → M A) : M A := λ b σ,
  match m b σ with
  | (Fulfilled a, σ') => (Fulfilled a, σ')
  | (Rejected e, σ') => h e b σ'
  end.

Definition record (c : Call) : M unit := λ _ σ,
  (Fulfilled (),
   {| trace := trace σ ++ [c]; open_pages := open_pages σ;
      response := response σ; listener := listener σ |}).

Definition get_response : M (option Response) := λ _ σ,
  (Fulfilled (response σ), σ).

Definition set_response (r : option Response) : M unit := λ _ σ,
  (Fulfilled (),
   {| trace := trace σ; open_pages := open_pages σ;
      response := r; listener := listener σ |}).

Definition set_listener (h : Response → option Response → option Response)
  : M unit := λ _ σ,
  (Fulfilled (),
   {| trace := trace σ; open_pages := open_pages σ;
      response := response σ; listener := Some h |}).

Definition set_open_pages (f : nat → nat) : M unit := λ _ σ,
  (Fulfilled (),
   {| trace := trace σ; open_pages := f (open_pages σ);
      response := response σ; listener := listener σ |}).

(** The page emits response events: the registered handler, if any, runs on
    each of them in turn. *)
Definition dispatch (h : option (Response → option Response → option Response))
    (events : list Response) (cur : option Response) : option Response :=
  match h with
  | Some h => foldl (λ cur r, h r cur) cur events
  | None => cur
  end.

Definition emit (events : list Response) : M unit := λ _ σ,
  (Fulfilled (),
   {| trace := trace σ; open_pages := open_pages σ;
      response := dispatch (listener σ) events (response σ);
      listener := listener σ |}).

(** [await op]: the call is made, the events emitted while it is pending
    reach the listener, then the promise settles. *)
Definition await {A} (c : Call) (op : Browser → pending A) : M A :=
  record c ;;
  (λ b, emit (emits (op b)) b) ;;
  (λ b σ, (thrown (settles (op b)), σ)).

(** A call whose promise is dropped: a rejection never reaches the caller. *)
Definition fire_and_forget (c : Call) : M unit := record c.

Definition console_error (msg : string) : M unit := record (ConsoleError msg).

(** ** The page operations the methods use *)

Definition browser_newPage : M unit :=
  await NewPage newPage ;; set_open_pages S.

Definition page_setViewport (width height : Z) (isMobile : bool) : M unit :=
  await (SetViewport width height isMobile) setViewport.

Definition page_setUserAgent (userAgent : string) : M unit :=
  fire_and_forget (SetUserAgent userAgent).

Definition page_on (event : string)
    (h : Response → option Response → option Response) : M unit :=
  record (On event) ;;
  (if String.eqb event "response" then set_listener h else mret ()).

Definition page_goto (url : string) (timeout : Z) (waitUntil : string)
  : M (option Response) :=
  await (Goto url timeout waitUntil) goto.

(** The selector [meta[name="render:status_code"]]. *)
Definition render_status_code_selector : string :=
  let quote := String (ascii_of_nat 34) EmptyString in
  "meta[name=" ++ quote ++ "render:status_code" ++ quote ++ "]".

(** [page.$eval(selector, f)] for the selector of the override tag: [f] runs
    on the attribute of the matching element. *)
Definition page_eval_meta {A} (f : option string → A) : M A :=
  c ← await (Eval render_status_code_selector) meta_content;
  mret (f c).

Definition page_evaluate_outerHTML : M string :=
  await Evaluate outerHTML.

Definition page_screenshot (options : gmap string JSValue) : M Buffer :=
  await (Screenshot options) capture.

Definition page_close : M unit :=
  await Close close ;; set_open_pages pred.

(** ** The methods of [Renderer] *)

(** [{ ...options, type: 'jpeg', encoding: 'binary' }] *)
Definition screenshotOptions (options : option (gmap string JSValue))
  : gmap string JSValue :=
  <["encoding" := VString "binary"]>
    (<["type" := VString "jpeg"]> (default ∅ options)).

(** Lines 71 to 82: the status returned for a response with status
    [statusCode] when the lookup of the override tag gave [newStatusCode]. *)
Definition resolve_status (statusCode : Z) (newStatusCode : option JSNumber)
  : Z :=
  let statusCode := if statusCode =? 304 then 200 else statusCode in
  if (statusCode =? 200) && truthy newStatusCode
  then match newStatusCode with
       | Some (Num n) => n
       | _ => statusCode (* not reached: such a value is falsy *)
       end
  else statusCode.

(** The handler of line 48: [if (!response) { response = r; }]. *)
Definition capture_first (r : Response) (response : option Response)
  : option Response :=
  if response is None then Some r else response.

Definition serialize (config : Config.t) (requestUrl : string)
    (isMobile : bool) : M SerializedResponse :=
  browser_newPage ;;
  page_setViewport (Config.width config) (Config.height config) isMobile ;;
  (if isMobile then page_setUserAgent MOBILE_USERAGENT else mret ()) ;;
  set_response None ;;
  page_on "response" capture_first ;;
  try_catch
    (r ← page_goto requestUrl (Config.timeout config) "networkidle0";
     set_response r)
    (λ e, console_error "Error navigating to page:") ;;
  response ← get_response;
  match response with
  | None =>
      console_error "No response received for the requested URL" ;;
      page_close ;;
      mret {| status := 400; content := EmptyString |}
  | Some response =>
      let statusCode := Puppeteer.status response in
      newStatusCode ←
        try_catch
          (page_eval_meta (λ c, Some (parseInt (or_empty c))))
          (λ _, mret None);
      let statusCode := resolve_status statusCode newStatusCode in
      result ← page_evaluate_outerHTML;
      page_close ;;
      mret {| status := statusCode; content := result |}
  end.

Definition screenshot (requestUrl : string) (isMobile : bool)
    (dimensions : ViewportDimensions)
    (options : option (gmap string JSValue)) : M Buffer :=
  browser_newPage ;;
  page_setViewport (width dimensions) (height dimensions) isMobile ;;
  (if isMobile then page_setUserAgent MOBILE_USERAGENT else mret ()) ;;
  set_response None ;;
  try_catch
    (r ← page_goto requestUrl 10000 "networkidle0";
     set_response r)
    (λ e, console_error "Error navigating to page for screenshot:") ;;
  response ← get_response;
  match response with
  | None => throw (ScreenshotErr (new_ScreenshotError NoResponse))
  | Some _ =>
      buffer ← page_screenshot (screenshotOptions options);
      page_close ;;
      mret buffer
  end.

(** One call of a method, from the state in which nothing has happened. *)
Definition run {A} (m : M A) (b : Browser) : settled exn A * State :=
  m b initial.

(** ** What a call computes

    The definitions below are not in the source: they name the quantities
    the properties are about, and the lemmas [serialize_result] and
    [screenshot_result] tie them to the code. *)

(** The variable [response] of [serialize] after its [try]/[catch]: the
    value of [page.goto] when it is fulfilled, otherwise what the listener
    captured while the navigation was pending. *)
Definition serialize_response (b : Browser) : option Response :=
  match settles (goto b) with
  | Fulfilled r => r
  | Rejected _ => head (emits (goto b))
  end.

(** The variable [response] of [screenshot] after its [try]/[catch]. *)
Definition screenshot_response (b : Browser) : option Response :=
  match settles (goto b) with
  | Fulfilled r => r
  | Rejected _ => None
  end.

(** The constant [newStatusCode] of [serialize]: [undefined] when the
    lookup of the override tag is rejected. *)
Definition newStatusCode (b : Browser) : option JSNumber :=
  match settles (meta_content b) with
  | Fulfilled c => Some (parseInt (or_empty c))
  | Rejected _ => None
  end.

(** How [serialize] ends on the path of lines 64 to 68. *)
Definition no_response_outcome (b : Browser) : settled exn SerializedResponse :=
  thrown (settles (close b)) ;;
  mret {| status := 400; content := EmptyString |}.

(** How [serialize] ends on the path of lines 70 to 88, with [resp] in the
    variable [response]. *)
Definition rendered_outcome (resp : Response) (b : Browser)
  : settled exn SerializedResponse :=
  html ← thrown (settles (outerHTML b));
  thrown (settles (close b)) ;;
  mret {| status := resolve_status (Puppeteer.status resp) (newStatusCode b);
          content := html |}.

(** The response [serialize] uses, in the words of the specification: the
    navigation's response if present, otherwise the earliest captured
    response. *)
Definition claimed_response (b : Browser) : option Response :=
  match settles (goto b) with
  | Fulfilled (Some r) => Some r
  | _ => head (emits (goto b))
  end.

(** The option bags [page.screenshot] was called with. *)
Definition captures (t : list Call) : list (gmap string JSValue) :=
  omap (λ c, match c with Screenshot o => Some o | _ => None end) t.

(** The calls of a method up to the navigation. *)
Definition opening (width height : Z) (isMobile : bool) : list Call :=
  [NewPage; SetViewport width height isMobile]
  ++ (if isMobile then [SetUserAgent MOBILE_USERAGENT] else []).

(** ** Browsers and requests to run the methods on *)

Definition config0 : Config.t :=
  {| Config.width := 1000; Config.height := 1000; Config.timeout := 10000 |}.

Definition url0 : string := "http://example.test/".

Definition page0 : string := "<html><head></head><body></body></html>".

Definition dimensions0 : ViewportDimensions :=
  {| width := 800; height := 600 |}.

Definition response_with (statusCode : Z) : Response :=
  {| Puppeteer.status := statusCode; Puppeteer.url := url0 |}.

Definition succeeds {A} (a : A) : pending A :=
  {| emits := []; settles := Fulfilled a |}.

Definition fails {A} (why : string) : pending A :=
  {| emits := []; settles := Rejected {| Puppeteer.reason := why |} |}.

(** A browser whose page opens, renders [page0] and closes; the navigation
    and the lookup of the override tag are left open. *)
Definition browser_with (navigation : pending (option Response))
    (meta : pending (option string)) : Browser :=
  {| newPage := succeeds ();
     setViewport := succeeds ();
     goto := navigation;
     meta_content := meta;
     outerHTML := succeeds page0;
     capture := succeeds [Byte.xff; Byte.xd8];
     close := succeeds () |}.

(** A browser whose navigation is fulfilled with a response of the given
    status. *)
Definition rendering (statusCode : Z) (meta : pending (option string))
  : Browser :=
  browser_with (succeeds (Some (response_with statusCode))) meta.

Definition no_meta : pending (option string) :=
  fails "failed to find element matching selector".

Definition timeout_error : pending (option Response) :=
  fails "Navigation timeout exceeded".

(** The navigation is fulfilled with [null] after a response event. *)
Definition null_after_event : pending (option Response) :=
  {| emits := [response_with 200]; settles := Fulfilled None |}.

(** The navigation times out after a response event. *)
Definition timeout_after_event : pending (option Response) :=
  {| emits := [response_with 200];
     settles := Rejected {| Puppeteer.reason := "Navigation timeout exceeded" |} |}.

(** The page renders, but its execution context is gone when the document
    is read. *)
Definition browser_losing_context : Browser :=
  {| newPage := succeeds ();
     setViewport := succeeds ();
     goto := succeeds (Some (response_with 200));
     meta_content := no_meta;
     outerHTML := fails "Execution context was destroyed";
     capture := succeeds [];
     close := succeeds () |}.

(** Options of a caller that asks for a PNG in base 64 and a quality. *)
Definition options0 : gmap string JSValue :=
  {[ "type" := VString "png";
     "encoding" := VString "base64";
     "quality" := VNumber 80 ]}.

(** ** Reading a trace *)

(** The navigations [page.goto] was called for: URL, time-out and
    [waitUntil] policy. *)
Definition navigations (t : list Call) : list (string * Z * string) :=
  omap (λ c, match c with
             | Goto url timeout waitUntil => Some (url, timeout, waitUntil)
             | _ => None
             end) t.

(** The messages given to [console.error]. *)
Definition logged (t : list Call) : list string :=
  omap (λ c, match c with ConsoleError msg => Some msg | _ => None end) t.

(** The calls that look into the document: [page.$eval] and
    [page.evaluate]. *)
Definition document_reads (t : list Call) : list Call :=
  omap (λ c, match c with Eval _ | Evaluate => Some c | _ => None end) t.

(** ** Decimal numerals

    Not in the source: the numeral of an integer, to exhibit a content of
    the override tag for every integer. *)

Definition digit_char (d : Z) : ascii := ascii_of_N (Z.to_N (48 + d)).

(** The digits of [n], most significant first, in front of [acc]; [fuel]
    bounds the number of digits. *)
Fixpoint decimal (fuel : nat) (n : Z) (acc : string) : string :=
  match fuel with
  | O => acc
  | S fuel =>
      if n <? 10 then String (digit_char n) acc
      else decimal fuel (n / 10) (String (digit_char (n mod 10)) acc)
  end.

(** A number has no more decimal digits than binary ones. *)
Definition digits_bound (n : Z) : nat := S (Z.to_nat (Z.log2 n)).

Definition numeral (n : Z) : string :=
  if n <? 0
  then String "-" (decimal (digits_bound (- n)) (- n) EmptyString)
  else decimal (digits_bound n) n EmptyString.

(** ** More browsers *)

(** The page renders, the capture fails. *)
Definition browser_failing_capture : Browser :=
  {| newPage := succeeds ();
     setViewport := succeeds ();
     goto := succeeds (Some (response_with 200));
     meta_content := no_meta;
     outerHTML := succeeds page0;
     capture := fails "Protocol error (Page.captureScreenshot)";
     close := succeeds () |}.

(** Response events while a promise is pending, before it is fulfilled. *)
Definition after_events {A} (events : list Response) (a : A) : pending A :=
  {| emits := events; settles := Fulfilled a |}.

(** The navigation times out after two response events, and the page goes
    on emitting responses during every later operation. *)
Definition browser_with_late_events : Browser :=
  {| newPage := after_events [response_with 500] ();
     setViewport := after_events [response_with 500] ();
     goto := {| emits := [response_with 200; response_with 404];
                settles := Rejected
                  {| Puppeteer.reason := "Navigation timeout exceeded" |} |};
     meta_content := after_events [response_with 500] (Some "410");
     outerHTML := after_events [response_with 500] page0;
     capture := after_events [response_with 500] [Byte.xff; Byte.xd8];
     close := after_events [response_with 500] () |}.

(** * Properties *)

(** ** [parseInt] *)

Example parseInt_404 : parseInt "404" = Num 404.
Proof. reflexivity. Qed.

Example parseInt_skips_space_and_reads_sign : parseInt "  -12px" = Num (-12).
Proof. reflexivity. Qed.

Example parseInt_empty : parseInt EmptyString = NaN.
Proof. reflexivity. Qed.

Example parseInt_no_digit : parseInt "not found" = NaN.
Proof. reflexivity. Qed.

Lemma or_empty_Some (c : string) : or_empty (Some c) = c.
Proof. by destruct c. Qed.

Lemma truthy_Num (n : Z) : truthy (Some (Num n)) = true ↔ n ≠ 0.
Proof.
  simpl. rewrite negb_true_iff. split.
  - intros H ->. discriminate.
  - intros H. by apply Z.eqb_neq.
Qed.

(** ** Status resolution *)

Lemma resolve_status_undefined (statusCode : Z) :
  resolve_status statusCode None = if statusCode =? 304 then 200 else statusCode.
Proof. unfold resolve_status. cbn [truthy]. by rewrite andb_false_r. Qed.

Lemma resolve_status_falsy (statusCode : Z) (n : JSNumber) :
  number_truthy n = false →
  resolve_status statusCode (Some n)
  = if statusCode =? 304 then 200 else statusCode.
Proof.
  intros Hn. unfold resolve_status. cbn [truthy]. rewrite Hn.
  by rewrite andb_false_r.
Qed.

Lemma resolve_status_override (statusCode n : Z) :
  statusCode = 200 ∨ statusCode = 304 → n ≠ 0 →
  resolve_status statusCode (Some (Num n)) = n.
Proof.
  intros Hs Hn. unfold resolve_status.
  apply truthy_Num in Hn as ->. by destruct Hs as [-> | ->].
Qed.

Lemma resolve_status_not_200 (statusCode : Z) (n : option JSNumber) :
  statusCode ≠ 200 → statusCode ≠ 304 →
  resolve_status statusCode n = statusCode.
Proof.
  intros H200 H304. unfold resolve_status.
  apply Z.eqb_neq in H304 as ->. by apply Z.eqb_neq in H200 as ->.
Qed.

(** ** The listener *)

(** The handler of [serialize] keeps the first response it is given. *)
Lemma dispatch_capture_first (events : list Response) (cur : option Response) :
  dispatch (Some capture_first) events cur
  = match cur with Some _ => cur | None => head events end.
Proof.
  unfold dispatch. revert cur.
  induction events as [|r events IH]; intros cur; simpl.
  - by destruct cur.
  - rewrite IH. by destruct cur.
Qed.

(** ** Running a method *)

Section run_equations.
Context {A B : Type} (b : Browser) (σ : State).

Lemma run_ret (a : A) : mret (M := M) a b σ = (Fulfilled a, σ).
Proof. done. Qed.

Lemma run_bind (m : M A) (f : A → M B) :
  (m ≫= f) b σ
  = match m b σ with
    | (Fulfilled a, σ') => f a b σ'
    | (Rejected e, σ') => (Rejected e, σ')
    end.
Proof. done. Qed.

Lemma run_try_catch (m : M A) (h : exn → M A) :
  try_catch m h b σ
  = match m b σ with
    | (Fulfilled a, σ') => (Fulfilled a, σ')
    | (Rejected e, σ') => h e b σ'
    end.
Proof. done. Qed.

Lemma run_await (c : Call) (op : Browser → pending A) :
  await c op b σ
  = (thrown (settles (op b)),
     {| trace := trace σ ++ [c];
        open_pages := open_pages σ;
        response := dispatch (listener σ) (emits (op b)) (response σ);
        listener := listener σ |}).
Proof. done. Qed.
End run_equations.

Ltac run_simpl :=
  rewrite ?run_ret, ?run_bind, ?run_try_catch, ?run_await;
  cbn [fst snd trace open_pages response listener app thrown
       set_response get_response set_listener set_open_pages record
       console_error fire_and_forget throw String.eqb Ascii.eqb Bool.eqb].

Ltac run_case :=
  match goal with
  | H : settles ?p = _ |- context [settles ?p] => rewrite H
  | H : emits ?p = _ |- context [emits ?p] => rewrite H
  | |- context [thrown (settles ?p)] =>
      let H := fresh "Hsettles" in destruct (settles p) eqn:H
  | |- context [if ?c then _ else _] => is_var c; destruct c
  | |- context [match ?o with Some _ => _ | None => _ end] =>
      is_var o; destruct o
  | |- context [match head ?l with Some _ => _ | None => _ end] =>
      let H := fresh "Hhead" in destruct (head l) eqn:H
  | u : unit |- _ => destruct u
  end.

(** Runs [serialize] or [screenshot] on a browser that is not known, one
    case for each way its promises can settle. *)
Ltac run_method :=
  unfold run, serialize, screenshot, browser_newPage, page_setViewport,
    page_setUserAgent, page_on, page_goto, page_eval_meta,
    page_evaluate_outerHTML, page_screenshot, page_close, initial;
  repeat (run_simpl; rewrite ?dispatch_capture_first; try run_case).

(** Names the result and the final state of the run in the goal, and runs
    the method. *)
Ltac run_as res σ :=
  match goal with
  | |- context [run ?m ?b] =>
      let H := fresh "Hrun" in
      destruct (run m b) as [res σ] eqn:H; revert H; run_method;
      intros H; simplify_eq H; clear H; intros; subst; cbn [fst snd]
  end.

Ltac use_equations :=
  repeat match goal with
         | H : settles _ = _ |- _ => rewrite H in *; clear H
         | H : head _ = _ |- _ => rewrite H in *; clear H
         end.

(** The result of [serialize], for every browser. *)
Lemma serialize_result config url isMobile b :
  (run (serialize config url isMobile) b).1
  = (thrown (settles (newPage b)) ;;
     thrown (settles (setViewport b)) ;;
     match serialize_response b with
     | Some resp => rendered_outcome resp b
     | None => no_response_outcome b
     end).
Proof.
  run_method;
    unfold serialize_response, rendered_outcome, no_response_outcome,
      newStatusCode;
    use_equations; done.
Qed.

(** The result of [screenshot], for every browser. *)
Lemma screenshot_result url isMobile dimensions options b :
  (run (screenshot url isMobile dimensions options) b).1
  = (thrown (settles (newPage b)) ;;
     thrown (settles (setViewport b)) ;;
     match screenshot_response b with
     | Some _ =>
         buffer ← thrown (settles (capture b));
         thrown (settles (close b)) ;;
         mret buffer
     | None => Rejected (ScreenshotErr (new_ScreenshotError NoResponse))
     end).
Proof.
  run_method; unfold screenshot_response; use_equations; done.
Qed.

(** The scenarios of the specification. *)

Example scenario_override_404 :
  (run (serialize config0 url0 false) (rendering 200 (succeeds (Some "404")))).1
  = Fulfilled {| status := 404; content := page0 |}.
Proof. reflexivity. Qed.

Example scenario_not_modified :
  (run (serialize config0 url0 false) (rendering 304 no_meta)).1
  = Fulfilled {| status := 200; content := page0 |}.
Proof. reflexivity. Qed.

Example scenario_timeout :
  (run (serialize config0 url0 false) (browser_with timeout_error no_meta)).1
  = Fulfilled {| status := 400; content := EmptyString |}.
Proof. reflexivity. Qed.

Example scenario_screenshot_timeout :
  (run (screenshot url0 false dimensions0 None)
     (browser_with timeout_error no_meta)).1
  = Rejected (ScreenshotErr {| message := "NoResponse";
                               name := "ScreenshotError";
                               type := NoResponse |}).
Proof. reflexivity. Qed.

(** The user agent is overridden exactly for a mobile request, and the
    viewport carries the flag of the request. *)
Lemma serialize_device config url isMobile b :
  settles (newPage b) = Fulfilled () →
  settles (setViewport b) = Fulfilled () →
  take (List.length (opening (Config.width config) (Config.height config) isMobile))
    (trace (run (serialize config url isMobile) b).2)
  = opening (Config.width config) (Config.height config) isMobile.
Proof. intros HnewPage HsetViewport. run_as res σ; done. Qed.

(** What [serialize] returns, when it returns and [resp] is in its variable
    [response]. *)
Lemma serialize_returned_status config url isMobile b resp r σ :
  run (serialize config url isMobile) b = (Fulfilled r, σ) →
  serialize_response b = Some resp →
  status r = resolve_status (Puppeteer.status resp) (newStatusCode b).
Proof.
  intros Hrun Hresp.
  pose proof (serialize_result config url isMobile b) as Hres.
  rewrite Hrun, Hresp in Hres. unfold rendered_outcome in Hres. simpl in Hres.
  destruct (settles (newPage b)); [|done].
  destruct (settles (setViewport b)); [|done].
  destruct (settles (outerHTML b)); [|done].
  destruct (settles (close b)); [|done].
  simpl in Hres. by injection Hres as ->.
Qed.

(** ** The status override *)

(** C1, as stated, fails on a document whose override tag reads [0]: the
    content parses as the integer 0, the response has status 200, and
    [serialize] returns status 200, not the parsed value. *)
Lemma override_zero_is_not_adopted :
  parseInt "0" = Num 0
  ∧ (run (serialize config0 url0 false) (rendering 200 (succeeds (Some "0")))).1
    = Fulfilled {| status := 200; content := page0 |}
  ∧ 200 ≠ 0.
Proof. split; [reflexivity | split; [vm_compute; reflexivity | discriminate]]. Qed.

(** C1, amended: when the response in use has status 200 or 304 and the
    content of the override tag parses as an integer other than zero, the
    status [serialize] returns is that integer; when the status of the
    response is neither 200 nor 304, the status returned is the status of
    the response, whatever the override tag holds. *)
Theorem serialize_status_override config url isMobile b resp r σ :
  run (serialize config url isMobile) b = (Fulfilled r, σ) →
  serialize_response b = Some resp →
  (∀ c n,
     Puppeteer.status resp = 200 ∨ Puppeteer.status resp = 304 →
     settles (meta_content b) = Fulfilled (Some c) →
     parseInt c = Num n → n ≠ 0 →
     status r = n)
  ∧ (Puppeteer.status resp ≠ 200 → Puppeteer.status resp ≠ 304 →
     status r = Puppeteer.status resp).
Proof.
  intros Hrun Hresp.
  rewrite (serialize_returned_status _ _ _ _ _ _ _ Hrun Hresp). split.
  - intros c n Hs Hc Hn Hn0. unfold newStatusCode.
    rewrite Hc, or_empty_Some, Hn. by apply resolve_status_override.
  - apply resolve_status_not_200.
Qed.

Lemma serialize_status_override_witness :
  (∃ r, (run (serialize config0 url0 false)
           (rendering 200 (succeeds (Some "404")))).1 = Fulfilled r
        ∧ status r = 404)
  ∧ (∃ r, (run (serialize config0 url0 true)
             (rendering 304 (succeeds (Some "410")))).1 = Fulfilled r
          ∧ status r = 410)
  ∧ (∃ r, (run (serialize config0 url0 false)
             (rendering 500 (succeeds (Some "404")))).1 = Fulfilled r
          ∧ status r = 500).
Proof.
  split; [|split].
  - exists {| status := 404; content := page0 |}.
    split; [vm_compute; reflexivity|].
    refine (proj1 (serialize_status_override config0 url0 false
                     (rendering 200 (succeeds (Some "404")))
                     (response_with 200) _
                     (run (serialize config0 url0 false)
                        (rendering 200 (succeeds (Some "404")))).2 _ eq_refl)
              "404" 404 _ eq_refl eq_refl _);
      [vm_compute; reflexivity | by left | discriminate].
  - exists {| status := 410; content := page0 |}.
    split; [vm_compute; reflexivity|].
    refine (proj1 (serialize_status_override config0 url0 true
                     (rendering 304 (succeeds (Some "410")))
                     (response_with 304) _
                     (run (serialize config0 url0 true)
                        (rendering 304 (succeeds (Some "410")))).2 _ eq_refl)
              "410" 410 _ eq_refl eq_refl _);
      [vm_compute; reflexivity | by right | discriminate].
  - exists {| status := 500; content := page0 |}.
    split; [vm_compute; reflexivity|].
    refine (proj2 (serialize_status_override config0 url0 false
                     (rendering 500 (succeeds (Some "404")))
                     (response_with 500) _
                     (run (serialize config0 url0 false)
                        (rendering 500 (succeeds (Some "404")))).2 _ eq_refl)
              _ _);
      [vm_compute; reflexivity | discriminate | discriminate].
Defined.

(** ** Navigation failures *)



(** ** Closing the page *)

(** C4, amended: whenever [serialize] returns a value, on the path of a
    successful render, of a navigation error and of a missing response
    alike, the page it opened first has been closed, and closing it was the
    last thing it did. *)
Theorem serialize_closes_page config url isMobile b r σ :
  run (serialize config url isMobile) b = (Fulfilled r, σ) →
  head (trace σ) = Some NewPage
  ∧ last (trace σ) = Some Close
  ∧ open_pages σ = 0%nat.
Proof.
  run_method; intros Hrun; simplify_eq Hrun; intros; subst; done.
Qed.

(** X11: When [serialize] raises after it opened the page, the page stays
    open. *)
Lemma serialize_raising_leaves_page_open config url isMobile b e σ :
  run (serialize config url isMobile) b = (Rejected e, σ) →
  settles (newPage b) = Fulfilled () →
  open_pages σ = 1%nat.
Proof.
  intros Hrun HnewPage. revert Hrun. run_method;
    intros Hrun; simplify_eq Hrun; intros; subst; done.
Qed.

(** C4, as stated, fails when the document cannot be read after the
    navigation: [serialize] ends, by raising the browser's error, after
    [page.evaluate], without a call to [page.close] and with its page still
    open. *)
Lemma serialize_ends_with_page_open_when_document_unreadable :
  (run (serialize config0 url0 false) browser_losing_context).1
  = Rejected
      (BrowserError {| Puppeteer.reason := "Execution context was destroyed" |})
  ∧ trace (run (serialize config0 url0 false) browser_losing_context).2
    = [NewPage; SetViewport 1000 1000 false; On "response";
       Goto url0 10000 "networkidle0"; Eval render_status_code_selector;
       Evaluate]
  ∧ open_pages (run (serialize config0 url0 false) browser_losing_context).2
    = 1%nat.
Proof. repeat split; vm_compute; reflexivity. Qed.

Lemma returned {A} (m : M A) (b : Browser) (a : A) :
  (run m b).1 = Fulfilled a → run m b = (Fulfilled a, (run m b).2).
Proof. destruct (run m b) as [res σ]. by intros [= ->]. Qed.

Lemma raised {A} (m : M A) (b : Browser) (e : exn) :
  (run m b).1 = Rejected e → run m b = (Rejected e, (run m b).2).
Proof. destruct (run m b) as [res σ]. by intros [= ->]. Qed.

Lemma serialize_closes_page_witness :
  open_pages (run (serialize config0 url0 false) (rendering 200 no_meta)).2
  = 0%nat
  ∧ open_pages
      (run (serialize config0 url0 true)
         (browser_with timeout_after_event no_meta)).2 = 0%nat
  ∧ open_pages
      (run (serialize config0 url0 false)
         (browser_with timeout_error no_meta)).2 = 0%nat.
Proof.
  split; [|split].
  - exact (proj2 (proj2 (serialize_closes_page config0 url0 false
             (rendering 200 no_meta) _ _
             (returned (serialize config0 url0 false) (rendering 200 no_meta)
                {| status := 200; content := page0 |} eq_refl)))).
  - exact (proj2 (proj2 (serialize_closes_page config0 url0 true
             (browser_with timeout_after_event no_meta) _ _
             (returned (serialize config0 url0 true)
                (browser_with timeout_after_event no_meta)
                {| status := 200; content := page0 |} eq_refl)))).
  - exact (proj2 (proj2 (serialize_closes_page config0 url0 false
             (browser_with timeout_error no_meta) _ _
             (returned (serialize config0 url0 false)
                (browser_with timeout_error no_meta)
                {| status := 400; content := EmptyString |} eq_refl)))).
Defined.

(** ** The response [serialize] uses *)

(** C3, as stated, fails when the navigation is fulfilled with [null] after
    a response event: the response to use would be the captured one, in the
    words of the specification, and the call would end with its status 200;
    [serialize] returns status 400 with empty content. *)
Lemma null_navigation_discards_captured_response :
  claimed_response (browser_with null_after_event no_meta)
  = Some (response_with 200)
  ∧ rendered_outcome (response_with 200) (browser_with null_after_event no_meta)
    = Fulfilled {| status := 200; content := page0 |}
  ∧ (run (serialize config0 url0 false)
       (browser_with null_after_event no_meta)).1
    = Fulfilled {| status := 400; content := EmptyString |}.
Proof. split; [reflexivity | split; vm_compute; reflexivity]. Qed.

(** C3, amended: once the page is set up, [serialize] works on the
    navigation's own response when the navigation is fulfilled with one; on
    the first response the listener captured when the navigation throws;
    and it takes the no-response path when the navigation is fulfilled
    without a response, whatever the listener captured, or throws before
    any response event. *)
Theorem serialize_response_source config url isMobile b :
  settles (newPage b) = Fulfilled () →
  settles (setViewport b) = Fulfilled () →
  (run (serialize config url isMobile) b).1
  = match settles (goto b) with
    | Fulfilled (Some r) => rendered_outcome r b
    | Fulfilled None => no_response_outcome b
    | Rejected _ =>
        match emits (goto b) with
        | r :: _ => rendered_outcome r b
        | [] => no_response_outcome b
        end
    end.
Proof.
  intros HnewPage HsetViewport.
  rewrite serialize_result, HnewPage, HsetViewport. unfold serialize_response.
  destruct (settles (goto b)) as [[r|]|e]; [done..|].
  by destruct (emits (goto b)).
Qed.

Lemma serialize_response_source_witness :
  (run (serialize config0 url0 false)
     (browser_with timeout_after_event (succeeds (Some "404")))).1
  = Fulfilled {| status := 404; content := page0 |}.
Proof.
  exact (serialize_response_source config0 url0 false
           (browser_with timeout_after_event (succeeds (Some "404")))
           eq_refl eq_refl).
Defined.

(** ** Failures of [serialize] *)

(** C6, as stated, fails when the document cannot be read after a successful
    navigation: [serialize] raises the browser's error. *)
Lemma serialize_raises_when_document_unreadable :
  (run (serialize config0 url0 false) browser_losing_context).1
  = Rejected
      (BrowserError {| Puppeteer.reason := "Execution context was destroyed" |}).
Proof. vm_compute. reflexivity. Qed.

(** C6, amended: whatever the navigation and the lookup of the override tag
    do, [serialize] returns a value exactly when opening the page, setting
    its viewport, reading the document (on the path that reads it) and
    closing the page succeed. *)
Theorem serialize_returns_iff_page_works config url isMobile b :
  (∃ r, (run (serialize config url isMobile) b).1 = Fulfilled r)
  ↔ settles (newPage b) = Fulfilled ()
    ∧ settles (setViewport b) = Fulfilled ()
    ∧ (is_Some (serialize_response b) →
       ∃ html, settles (outerHTML b) = Fulfilled html)
    ∧ settles (close b) = Fulfilled ().
Proof.
  rewrite serialize_result.
  unfold rendered_outcome, no_response_outcome.
  destruct (settles (newPage b)) as [[]|]; simpl;
    [|split; [intros [? [=]] | intros [[=] _]]].
  destruct (settles (setViewport b)) as [[]|]; simpl;
    [|split; [intros [? [=]] | intros (_ & [=] & _)]].
  destruct (serialize_response b) as [resp|]; simpl.
  - destruct (settles (outerHTML b)) as [html|]; simpl.
    + destruct (settles (close b)) as [[]|]; simpl.
      * split; [eauto 10 | eauto].
      * split; [intros [? [=]] | intros (_ & _ & _ & [=])].
    + split; [intros [? [=]] | intros (_ & _ & Hread & _)].
      destruct Hread as [? [=]]. eauto.
  - destruct (settles (close b)) as [[]|]; simpl.
    + split; [|eauto]. intros _. repeat split; try done.
    + split; [intros [? [=]] | intros (_ & _ & _ & [=])].
Qed.

Lemma serialize_returns_iff_page_works_witness :
  ∃ r, (run (serialize config0 url0 false)
          (browser_with timeout_error no_meta)).1 = Fulfilled r.
Proof.
  apply (proj2 (serialize_returns_iff_page_works config0 url0 false
                  (browser_with timeout_error no_meta))).
  repeat split; try reflexivity. intros [? [=]].
Defined.

(** ** The status without an override *)

(** C7: after a successful navigation of a document without override tag,
    the status returned is the status of the response, except that 304 is
    returned as 200. *)
Theorem serialize_status_without_override config url isMobile b resp e r σ :
  run (serialize config url isMobile) b = (Fulfilled r, σ) →
  settles (goto b) = Fulfilled (Some resp) →
  settles (meta_content b) = Rejected e →
  status r
  = if Puppeteer.status resp =? 304 then 200 else Puppeteer.status resp.
Proof.
  intros Hrun Hgoto Hmeta.
  rewrite (serialize_returned_status _ _ _ _ resp _ _ Hrun).
  - unfold newStatusCode. rewrite Hmeta. apply resolve_status_undefined.
  - unfold serialize_response. by rewrite Hgoto.
Qed.

Lemma serialize_status_without_override_witness :
  (∃ r, (run (serialize config0 url0 false) (rendering 304 no_meta)).1
        = Fulfilled r ∧ status r = 200)
  ∧ (∃ r, (run (serialize config0 url0 false) (rendering 503 no_meta)).1
          = Fulfilled r ∧ status r = 503).
Proof.
  split.
  - exists {| status := 200; content := page0 |}. split; [reflexivity|].
    exact (serialize_status_without_override config0 url0 false
             (rendering 304 no_meta) (response_with 304)
             {| Puppeteer.reason := "failed to find element matching selector" |}
             {| status := 200; content := page0 |} _
             (returned (serialize config0 url0 false) (rendering 304 no_meta)
                {| status := 200; content := page0 |} eq_refl)
             eq_refl eq_refl).
  - exists {| status := 503; content := page0 |}. split; [reflexivity|].
    exact (serialize_status_without_override config0 url0 false
             (rendering 503 no_meta) (response_with 503)
             {| Puppeteer.reason := "failed to find element matching selector" |}
             {| status := 503; content := page0 |} _
             (returned (serialize config0 url0 false) (rendering 503 no_meta)
                {| status := 503; content := page0 |} eq_refl)
             eq_refl eq_refl).
Defined.

(** ** What the override test lets through *)

(** C9: an override that parses to [NaN] or to 0 is ignored, and the status
    returned is the status of the response (304 read as 200); any other
    parsed integer, of either sign and of any size, is returned as it is
    when the status of the response is 200. *)
Theorem override_adopted_when_truthy config url isMobile b resp c r σ :
  run (serialize config url isMobile) b = (Fulfilled r, σ) →
  serialize_response b = Some resp →
  settles (meta_content b) = Fulfilled c →
  (parseInt (or_empty c) = NaN ∨ parseInt (or_empty c) = Num 0 →
   status r
   = if Puppeteer.status resp =? 304 then 200 else Puppeteer.status resp)
  ∧ (∀ n, parseInt (or_empty c) = Num n → n ≠ 0 →
          Puppeteer.status resp = 200 → status r = n).
Proof.
  intros Hrun Hresp Hmeta.
  rewrite (serialize_returned_status _ _ _ _ _ _ _ Hrun Hresp).
  unfold newStatusCode. rewrite Hmeta. split.
  - intros [-> | ->]; by apply resolve_status_falsy.
  - intros n -> Hn Hs. apply resolve_status_override; auto.
Qed.

Lemma override_adopted_when_truthy_witness :
  (∃ r, (run (serialize config0 url0 false)
           (rendering 200 (succeeds (Some "none")))).1 = Fulfilled r
        ∧ status r = 200)
  ∧ (∃ r, (run (serialize config0 url0 false)
             (rendering 200 (succeeds (Some "-1")))).1 = Fulfilled r
          ∧ status r = -1)
  ∧ (∃ r, (run (serialize config0 url0 false)
             (rendering 200 (succeeds (Some "99999")))).1 = Fulfilled r
          ∧ status r = 99999).
Proof.
  split; [|split].
  - exists {| status := 200; content := page0 |}. split; [reflexivity|].
    refine (proj1 (override_adopted_when_truthy config0 url0 false
                     (rendering 200 (succeeds (Some "none")))
                     (response_with 200) (Some "none")
                     {| status := 200; content := page0 |} _
                     (returned (serialize config0 url0 false)
                        (rendering 200 (succeeds (Some "none")))
                        {| status := 200; content := page0 |} eq_refl)
                     eq_refl eq_refl) (or_introl eq_refl)).
  - exists {| status := -1; content := page0 |}. split; [reflexivity|].
    refine (proj2 (override_adopted_when_truthy config0 url0 false
                     (rendering 200 (succeeds (Some "-1")))
                     (response_with 200) (Some "-1")
                     {| status := -1; content := page0 |} _
                     (returned (serialize config0 url0 false)
                        (rendering 200 (succeeds (Some "-1")))
                        {| status := -1; content := page0 |} eq_refl)
                     eq_refl eq_refl) (-1) eq_refl _ eq_refl).
    discriminate.
  - exists {| status := 99999; content := page0 |}. split; [reflexivity|].
    refine (proj2 (override_adopted_when_truthy config0 url0 false
                     (rendering 200 (succeeds (Some "99999")))
                     (response_with 200) (Some "99999")
                     {| status := 99999; content := page0 |} _
                     (returned (serialize config0 url0 false)
                        (rendering 200 (succeeds (Some "99999")))
                        {| status := 99999; content := page0 |} eq_refl)
                     eq_refl eq_refl) 99999 eq_refl _ eq_refl).
    discriminate.
Defined.

(** ** [screenshot] *)

(** Proves that a call is not in a trace that is written out. *)
Ltac not_in_trace :=
  let Hin := fresh "Hin" in
  intros Hin;
  repeat (apply elem_of_cons in Hin as [Hin|Hin]; [discriminate Hin|]);
  by apply elem_of_nil in Hin.

Lemma ErrorType_cases (t : ErrorType) : t = Forbidden ∨ t = NoResponse.
Proof. destruct t; auto. Qed.

(** The options of the capture: [type] and [encoding] are set, every other
    key is the caller's. *)
Lemma screenshotOptions_lookup (options : option (gmap string JSValue)) :
  screenshotOptions options !! "type" = Some (VString "jpeg")
  ∧ screenshotOptions options !! "encoding" = Some (VString "binary")
  ∧ ∀ k, k ≠ "type" → k ≠ "encoding" →
         screenshotOptions options !! k = default ∅ options !! k.
Proof.
  unfold screenshotOptions. split; [|split].
  - rewrite lookup_insert_ne by done. apply lookup_insert_eq.
  - apply lookup_insert_eq.
  - intros k Htype Hencoding. by rewrite !lookup_insert_ne.
Qed.

(** C5: when [screenshot] returns, the page has been closed, and closing it
    was the last thing it did; when it raises its own error, the page is
    still open and no call to close it was made. *)
Theorem screenshot_page_closing url isMobile dimensions options b :
  (∀ buffer σ,
     run (screenshot url isMobile dimensions options) b = (Fulfilled buffer, σ) →
     last (trace σ) = Some Close ∧ open_pages σ = 0%nat)
  ∧ (∀ e σ,
       run (screenshot url isMobile dimensions options) b
       = (Rejected (ScreenshotErr e), σ) →
       type e = NoResponse ∧ (Close ∉ trace σ) ∧ open_pages σ = 1%nat).
Proof.
  split; intros x σ; run_method;
    intros Hrun; simplify_eq Hrun; intros; subst;
    repeat split; try done; not_in_trace.
Qed.

Lemma screenshot_page_closing_witness :
  open_pages
    (run (screenshot url0 false dimensions0 (Some options0))
       (rendering 200 no_meta)).2 = 0%nat
  ∧ open_pages
      (run (screenshot url0 false dimensions0 (Some options0))
         (browser_with timeout_after_event no_meta)).2 = 1%nat.
Proof.
  split.
  - exact (proj2 (proj1 (screenshot_page_closing url0 false dimensions0
                           (Some options0) (rendering 200 no_meta)) _ _
                    (returned (screenshot url0 false dimensions0 (Some options0))
                       (rendering 200 no_meta) [Byte.xff; Byte.xd8] eq_refl))).
  - exact (proj2 (proj2 (proj2 (screenshot_page_closing url0 false dimensions0
                           (Some options0)
                           (browser_with timeout_after_event no_meta)) _ _
                    (raised (screenshot url0 false dimensions0 (Some options0))
                       (browser_with timeout_after_event no_meta)
                       (ScreenshotErr (new_ScreenshotError NoResponse))
                       eq_refl)))).
Defined.

(** The captures [screenshot] makes: one, with the forced options, once the
    page is set up and the navigation gave a response; none otherwise. *)
Lemma screenshot_captures url isMobile dimensions options b :
  captures (trace (run (screenshot url isMobile dimensions options) b).2)
  = match settles (newPage b), settles (setViewport b), screenshot_response b with
    | Fulfilled _, Fulfilled _, Some _ => [screenshotOptions options]
    | _, _, _ => []
    end.
Proof.
  unfold screenshot_response. run_as res σ; use_equations; done.
Qed.

(** C8: every capture [screenshot] makes has type [jpeg] and encoding
    [binary] and, under every other key, what the caller supplied; a capture
    is made once the page is set up and the navigation gave a response; and
    the error [screenshot] raises when the navigation gave none is a
    [ScreenshotError] of type [NoResponse], one of the two error types. *)
Theorem screenshot_options_and_error url isMobile dimensions options b :
  (∀ o,
     o ∈ captures (trace (run (screenshot url isMobile dimensions options) b).2) →
     o !! "type" = Some (VString "jpeg")
     ∧ o !! "encoding" = Some (VString "binary")
     ∧ ∀ k, k ≠ "type" → k ≠ "encoding" → o !! k = default ∅ options !! k)
  ∧ (settles (newPage b) = Fulfilled () →
     settles (setViewport b) = Fulfilled () →
     is_Some (screenshot_response b) →
     captures (trace (run (screenshot url isMobile dimensions options) b).2)
     = [screenshotOptions options])
  ∧ (settles (newPage b) = Fulfilled () →
     settles (setViewport b) = Fulfilled () →
     screenshot_response b = None →
     ∃ e, (run (screenshot url isMobile dimensions options) b).1
          = Rejected (ScreenshotErr e)
          ∧ type e = NoResponse
          ∧ name e = "ScreenshotError"
          ∧ message e = "NoResponse")
  ∧ (∀ t : ErrorType, t = Forbidden ∨ t = NoResponse).
Proof.
  rewrite screenshot_captures, screenshot_result.
  split; [|split; [|split]].
  - destruct (settles (newPage b)), (settles (setViewport b)),
      (screenshot_response b); try by intros o []%elem_of_nil.
    intros o ->%list_elem_of_singleton. apply screenshotOptions_lookup.
  - by intros -> -> [resp ->].
  - intros -> -> ->. by exists (new_ScreenshotError NoResponse).
  - apply ErrorType_cases.
Qed.

Lemma screenshot_options_and_error_witness :
  captures
    (trace (run (screenshot url0 true dimensions0 (Some options0))
              (rendering 200 no_meta)).2)
  = [screenshotOptions (Some options0)]
  ∧ screenshotOptions (Some options0) !! "type" = Some (VString "jpeg")
  ∧ screenshotOptions (Some options0) !! "encoding" = Some (VString "binary")
  ∧ screenshotOptions (Some options0) !! "quality" = Some (VNumber 80).
Proof.
  pose proof (screenshot_options_and_error url0 true dimensions0
                (Some options0) (rendering 200 no_meta)) as (Hopt & Hcap & _).
  specialize (Hcap eq_refl eq_refl (ex_intro _ (response_with 200) eq_refl)).
  rewrite Hcap in Hopt.
  destruct (Hopt _ (list_elem_of_here _ _)) as (Htype & Hencoding & Hother).
  split; [exact Hcap|]. split; [exact Htype|]. split; [exact Hencoding|].
  rewrite Hother by discriminate. vm_compute. reflexivity.
Defined.



(** * Further properties *)

(** Splits the membership of a call in a trace that is written out, and
    closes the goal when the remaining cases are plain. *)
Ltac in_trace :=
  match goal with
  | H : _ ∈ _ |- _ =>
      repeat (apply elem_of_cons in H as [H|H]; [try discriminate H|]);
      try (by apply elem_of_nil in H);
      by simplify_eq
  end.

(** ** Device emulation *)

(** X1: [serialize] sets the viewport to the configured size with the flag of
    the request, and overrides the user agent, with the mobile one, exactly
    for a mobile request. *)
Theorem serialize_emulates_device config url isMobile b :
  (∀ w h m,
     SetViewport w h m ∈ trace (run (serialize config url isMobile) b).2 →
     w = Config.width config ∧ h = Config.height config ∧ m = isMobile)
  ∧ (∀ userAgent,
       SetUserAgent userAgent ∈ trace (run (serialize config url isMobile) b).2 →
       isMobile = true ∧ userAgent = MOBILE_USERAGENT)
  ∧ (settles (newPage b) = Fulfilled () →
     SetViewport (Config.width config) (Config.height config) isMobile
     ∈ trace (run (serialize config url isMobile) b).2)
  ∧ (settles (newPage b) = Fulfilled () →
     settles (setViewport b) = Fulfilled () →
     isMobile = true →
     SetUserAgent MOBILE_USERAGENT
     ∈ trace (run (serialize config url isMobile) b).2).
Proof.
  split; [|split; [|split]].
  - intros w h m. run_as res σ; in_trace.
  - intros userAgent. run_as res σ; in_trace.
  - intros HnewPage. run_as res σ; repeat constructor.
  - intros HnewPage HsetViewport ->. run_as res σ; repeat constructor.
Qed.

Lemma serialize_emulates_device_witness :
  SetUserAgent MOBILE_USERAGENT
  ∈ trace (run (serialize config0 url0 true) (rendering 200 no_meta)).2
  ∧ SetViewport 1000 1000 true
    ∈ trace (run (serialize config0 url0 true) (rendering 200 no_meta)).2.
Proof.
  pose proof (serialize_emulates_device config0 url0 true
                (rendering 200 no_meta)) as (_ & _ & Hviewport & Hagent).
  exact (conj (Hagent eq_refl eq_refl eq_refl) (Hviewport eq_refl)).
Defined.

(** X2: [screenshot] sets the viewport to the dimensions of the request, not to
    a configured size, and overrides the user agent exactly for a mobile
    request. *)
Theorem screenshot_emulates_device url isMobile dimensions options b :
  (∀ w h m,
     SetViewport w h m
     ∈ trace (run (screenshot url isMobile dimensions options) b).2 →
     w = width dimensions ∧ h = height dimensions ∧ m = isMobile)
  ∧ (∀ userAgent,
       SetUserAgent userAgent
       ∈ trace (run (screenshot url isMobile dimensions options) b).2 →
       isMobile = true ∧ userAgent = MOBILE_USERAGENT)
  ∧ (settles (newPage b) = Fulfilled () →
     SetViewport (width dimensions) (height dimensions) isMobile
     ∈ trace (run (screenshot url isMobile dimensions options) b).2)
  ∧ (settles (newPage b) = Fulfilled () →
     settles (setViewport b) = Fulfilled () →
     isMobile = true →
     SetUserAgent MOBILE_USERAGENT
     ∈ trace (run (screenshot url isMobile dimensions options) b).2).
Proof.
  split; [|split; [|split]].
  - intros w h m. run_as res σ; in_trace.
  - intros userAgent. run_as res σ; in_trace.
  - intros HnewPage. run_as res σ; repeat constructor.
  - intros HnewPage HsetViewport ->. run_as res σ; repeat constructor.
Qed.

Lemma screenshot_emulates_device_witness :
  SetUserAgent MOBILE_USERAGENT
  ∈ trace (run (screenshot url0 true dimensions0 None)
             (rendering 200 no_meta)).2
  ∧ SetViewport 800 600 true
    ∈ trace (run (screenshot url0 true dimensions0 None)
               (rendering 200 no_meta)).2.
Proof.
  pose proof (screenshot_emulates_device url0 true dimensions0 None
                (rendering 200 no_meta)) as (_ & _ & Hviewport & Hagent).
  exact (conj (Hagent eq_refl eq_refl eq_refl) (Hviewport eq_refl)).
Defined.

(** ** Navigation *)

(** X3: [serialize] navigates once the page is set up, and only once, whatever
    the browser does: to the URL of the request, with the configured
    time-out, until the network is idle. *)
Theorem serialize_navigates_once config url isMobile b :
  navigations (trace (run (serialize config url isMobile) b).2)
  = match settles (newPage b), settles (setViewport b) with
    | Fulfilled _, Fulfilled _ =>
        [(url, Config.timeout config, "networkidle0")]
    | _, _ => []
    end.
Proof. run_as res σ; use_equations; done. Qed.

(** X4: [screenshot] navigates once the page is set up, and only once: to the
    URL of the request, with a time-out of 10 seconds, until the network is
    idle. *)
Theorem screenshot_navigates_once url isMobile dimensions options b :
  navigations (trace (run (screenshot url isMobile dimensions options) b).2)
  = match settles (newPage b), settles (setViewport b) with
    | Fulfilled _, Fulfilled _ => [(url, 10000, "networkidle0")]
    | _, _ => []
    end.
Proof. run_as res σ; use_equations; done. Qed.

(** ** Logging *)

(** X5: What [serialize] logs: an error of the navigation when the navigation
    throws, then the missing response when there is none to work on;
    nothing else, and nothing when the lookup of the override tag fails. *)
Theorem serialize_logs config url isMobile b :
  logged (trace (run (serialize config url isMobile) b).2)
  = match settles (newPage b), settles (setViewport b) with
    | Fulfilled _, Fulfilled _ =>
        (match settles (goto b) with
         | Rejected _ => ["Error navigating to page:"]
         | Fulfilled _ => []
         end
         ++ match serialize_response b with
            | None => ["No response received for the requested URL"]
            | Some _ => []
            end)%list
    | _, _ => []
    end.
Proof.
  unfold serialize_response. run_as res σ; use_equations; done.
Qed.

(** ** Reading the document *)

(** X6: [serialize] looks into the document only when it has a response: then
    it looks up the override tag and reads the document, in this order, and
    it reads the document even when the lookup fails. *)
Theorem serialize_reads_document_with_response config url isMobile b :
  document_reads (trace (run (serialize config url isMobile) b).2)
  = match settles (newPage b), settles (setViewport b), serialize_response b with
    | Fulfilled _, Fulfilled _, Some _ =>
        [Eval render_status_code_selector; Evaluate]
    | _, _, _ => []
    end.
Proof.
  unfold serialize_response. run_as res σ; use_equations; done.
Qed.

(** ** What is returned *)

(** X7: The content [serialize] returns is the document as the page gave it,
    unchanged, when there was a response to work on; otherwise the result
    is status 400 with empty content. *)
Theorem serialize_returns_document config url isMobile b r σ :
  run (serialize config url isMobile) b = (Fulfilled r, σ) →
  match serialize_response b with
  | Some _ => settles (outerHTML b) = Fulfilled (content r)
  | None => r = {| status := 400; content := EmptyString |}
  end.
Proof.
  intros Hrun. pose proof (serialize_result config url isMobile b) as Hres.
  rewrite Hrun in Hres. cbn [fst] in Hres.
  unfold rendered_outcome, no_response_outcome in Hres.
  destruct (settles (newPage b)); [|done].
  destruct (settles (setViewport b)); [|done].
  destruct (serialize_response b).
  - destruct (settles (outerHTML b)); [|done].
    destruct (settles (close b)); [|done].
    by injection Hres as ->.
  - destruct (settles (close b)); [|done].
    by injection Hres as ->.
Qed.

Lemma serialize_returns_document_witness :
  settles (outerHTML (browser_with timeout_after_event no_meta))
  = Fulfilled page0.
Proof.
  exact (serialize_returns_document config0 url0 false
           (browser_with timeout_after_event no_meta)
           {| status := 200; content := page0 |} _
           (returned (serialize config0 url0 false)
              (browser_with timeout_after_event no_meta)
              {| status := 200; content := page0 |} eq_refl)).
Defined.

Lemma resolve_status_304 (statusCode : Z) (newStatusCode : option JSNumber) :
  resolve_status statusCode newStatusCode = 304 →
  newStatusCode = Some (Num 304).
Proof.
  unfold resolve_status.
  destruct (statusCode =? 304) eqn:H304; cbn.
  - destruct newStatusCode as [[|n]|]; cbn; try done.
    destruct (n =? 0); cbn; [done|]. by intros ->.
  - destruct (statusCode =? 200) eqn:H200; cbn.
    + apply Z.eqb_eq in H200 as ->.
      destruct newStatusCode as [[|n]|]; cbn; try done.
      destruct (n =? 0); cbn; [done|]. by intros ->.
    + intros ->. done.
Qed.

(** X8: A status 304 of the response is never returned: when [serialize]
    returns 304, the override tag of the document asked for it. *)
Theorem serialize_returns_304_only_on_override config url isMobile b r σ :
  run (serialize config url isMobile) b = (Fulfilled r, σ) →
  status r = 304 →
  newStatusCode b = Some (Num 304).
Proof.
  intros Hrun H304.
  pose proof (serialize_result config url isMobile b) as Hres.
  rewrite Hrun in Hres. cbn [fst] in Hres.
  unfold rendered_outcome, no_response_outcome in Hres.
  destruct (settles (newPage b)); [|done].
  destruct (settles (setViewport b)); [|done].
  destruct (serialize_response b) as [resp|].
  - destruct (settles (outerHTML b)); [|done].
    destruct (settles (close b)); [|done].
    injection Hres as ->. by eapply resolve_status_304.
  - destruct (settles (close b)); [|done].
    by injection Hres as ->.
Qed.

Lemma serialize_returns_304_only_on_override_witness :
  newStatusCode (rendering 200 (succeeds (Some "304"))) = Some (Num 304).
Proof.
  exact (serialize_returns_304_only_on_override config0 url0 false
           (rendering 200 (succeeds (Some "304")))
           {| status := 304; content := page0 |} _
           (returned (serialize config0 url0 false)
              (rendering 200 (succeeds (Some "304")))
              {| status := 304; content := page0 |} eq_refl)
           eq_refl).
Defined.

(** X9: [screenshot] returns a buffer exactly when the page is set up, the
    navigation is fulfilled with a response, the capture succeeds and the
    page closes; the buffer is the one the capture gave. *)
Theorem screenshot_returns_capture url isMobile dimensions options b buffer :
  (run (screenshot url isMobile dimensions options) b).1 = Fulfilled buffer
  ↔ settles (newPage b) = Fulfilled ()
    ∧ settles (setViewport b) = Fulfilled ()
    ∧ (∃ resp, settles (goto b) = Fulfilled (Some resp))
    ∧ settles (capture b) = Fulfilled buffer
    ∧ settles (close b) = Fulfilled ().
Proof.
  rewrite screenshot_result. unfold screenshot_response.
  destruct (settles (newPage b)) as [[]|]; simpl;
    [|split; [done | by intros [? _]]].
  destruct (settles (setViewport b)) as [[]|]; simpl;
    [|split; [done | by intros (_ & ? & _)]].
  destruct (settles (goto b)) as [[resp|]|]; simpl;
    [|split; [done | by intros (_ & _ & [? ?] & _)]..].
  destruct (settles (capture b)) as [buffer'|]; simpl;
    [|split; [done | by intros (_ & _ & _ & ? & _)]].
  destruct (settles (close b)) as [[]|]; simpl.
  - split; [intros [= ->]; eauto 10 | by intros (_ & _ & _ & [= ->] & _)].
  - split; [done | by intros (_ & _ & _ & _ & ?)].
Qed.

(** ** Pages left open *)

(** X10: When [screenshot] raises after it opened the page, whatever the reason
    (no response, a failed capture, a failed close), the page stays open:
    it closes the page only on the way to returning. *)
Theorem screenshot_raising_leaves_page_open
    url isMobile dimensions options b e σ :
  run (screenshot url isMobile dimensions options) b = (Rejected e, σ) →
  settles (newPage b) = Fulfilled () →
  open_pages σ = 1%nat
  ∧ (Close ∈ trace σ → ∃ e', settles (close b) = Rejected e').
Proof.
  intros Hrun HnewPage. revert Hrun. run_method;
    intros Hrun; simplify_eq Hrun; intros; subst; cbn;
    (split; [done|]); first [by eauto | not_in_trace].
Qed.

Lemma screenshot_raising_leaves_page_open_witness :
  open_pages
    (run (screenshot url0 false dimensions0 None) browser_failing_capture).2
  = 1%nat.
Proof.
  exact (proj1 (screenshot_raising_leaves_page_open url0 false dimensions0
                  None browser_failing_capture _ _
                  (raised (screenshot url0 false dimensions0 None)
                     browser_failing_capture
                     (BrowserError
                        {| Puppeteer.reason :=
                             "Protocol error (Page.captureScreenshot)" |})
                     eq_refl)
                  eq_refl)).
Defined.

Lemma serialize_raising_leaves_page_open_witness :
  open_pages (run (serialize config0 url0 false) browser_losing_context).2
  = 1%nat.
Proof.
  exact (serialize_raising_leaves_page_open config0 url0 false
           browser_losing_context _ _
           (raised (serialize config0 url0 false) browser_losing_context
              (BrowserError
                 {| Puppeteer.reason := "Execution context was destroyed" |})
              eq_refl)
           eq_refl).
Defined.

(** ** Response events *)

(** X12: Of all the response events of a call, only the first one emitted during
    the navigation can change what [serialize] returns: two browsers whose
    promises settle alike and whose navigations emit the same first event
    give the same result. *)
Theorem serialize_result_ignores_late_events config url isMobile b b' :
  settles (newPage b) = settles (newPage b') →
  settles (setViewport b) = settles (setViewport b') →
  settles (goto b) = settles (goto b') →
  settles (meta_content b) = settles (meta_content b') →
  settles (outerHTML b) = settles (outerHTML b') →
  settles (close b) = settles (close b') →
  head (emits (goto b)) = head (emits (goto b')) →
  (run (serialize config url isMobile) b).1
  = (run (serialize config url isMobile) b').1.
Proof.
  intros HnewPage HsetViewport Hgoto Hmeta Hhtml Hclose Hfirst.
  rewrite !serialize_result.
  unfold serialize_response, rendered_outcome, no_response_outcome,
    newStatusCode.
  by rewrite HnewPage, HsetViewport, Hgoto, Hmeta, Hhtml, Hclose, Hfirst.
Qed.

Lemma serialize_result_ignores_late_events_witness :
  (run (serialize config0 url0 true) browser_with_late_events).1
  = (run (serialize config0 url0 true)
       (browser_with timeout_after_event (succeeds (Some "410")))).1.
Proof.
  exact (serialize_result_ignores_late_events config0 url0 true
           browser_with_late_events
           (browser_with timeout_after_event (succeeds (Some "410")))
           eq_refl eq_refl eq_refl eq_refl eq_refl eq_refl eq_refl).
Defined.

(** X13: No response event changes what [screenshot] returns or raises: two
    browsers whose promises settle alike give the same result. *)
Theorem screenshot_result_ignores_events
    url isMobile dimensions options b b' :
  settles (newPage b) = settles (newPage b') →
  settles (setViewport b) = settles (setViewport b') →
  settles (goto b) = settles (goto b') →
  settles (capture b) = settles (capture b') →
  settles (close b) = settles (close b') →
  (run (screenshot url isMobile dimensions options) b).1
  = (run (screenshot url isMobile dimensions options) b').1.
Proof.
  intros HnewPage HsetViewport Hgoto Hcapture Hclose.
  rewrite !screenshot_result. unfold screenshot_response.
  by rewrite HnewPage, HsetViewport, Hgoto, Hcapture, Hclose.
Qed.

Lemma screenshot_result_ignores_events_witness :
  (run (screenshot url0 true dimensions0 None) browser_with_late_events).1
  = (run (screenshot url0 true dimensions0 None)
       (browser_with timeout_error no_meta)).1.
Proof.
  exact (screenshot_result_ignores_events url0 true dimensions0 None
           browser_with_late_events (browser_with timeout_error no_meta)
           eq_refl eq_refl eq_refl eq_refl eq_refl).
Defined.


(** ** Contents of the override tag *)

Lemma parse_digits_app (s t : string) (acc : option Z) :
  (∀ c t', t = String c t' → digit_value c = None) →
  parse_digits (s ++ t) acc = parse_digits s acc.
Proof.
  intros Ht. revert acc. induction s as [|c s IH]; intros acc; simpl.
  - destruct t as [|c t']; [done|]. simpl. by rewrite (Ht c t').
  - destruct (digit_value c); [apply IH | done].
Qed.

Lemma trim_start_app (s t : string) :
  trim_start s ≠ EmptyString → trim_start (s ++ t) = trim_start s ++ t.
Proof.
  induction s as [|c s IH]; simpl; [done|].
  destruct (is_whitespace c); [apply IH | done].
Qed.

(** X14: Text after the number does not count: when a content parses to an
    integer, so does the content followed by any text that does not start
    with a digit, and to the same integer. *)
Theorem parseInt_ignores_trailing_text (s t : string) (n : Z) :
  parseInt s = Num n →
  (∀ c t', t = String c t' → digit_value c = None) →
  parseInt (s ++ t) = Num n.
Proof.
  unfold parseInt. intros Hs Ht.
  assert (trim_start s ≠ EmptyString) as Hne
    by (intros Heq; by rewrite Heq in Hs).
  rewrite (trim_start_app _ _ Hne).
  destruct (trim_start s) as [|c rest]; [done|]. simpl.
  destruct c as [[] [] [] [] [] [] [] []]; cbn -[parse_digits] in *;
    first
      [ by rewrite parse_digits_app
      | match goal with
        | |- context [parse_digits (String ?a (?r ++ ?t)) ?acc] =>
            change (parse_digits (String a (r ++ t)) acc)
              with (parse_digits (String a r ++ t) acc);
            by rewrite parse_digits_app
        end ].
Qed.

Lemma parseInt_ignores_trailing_text_witness :
  parseInt ("404" ++ " Not Found") = Num 404.
Proof.
  apply (parseInt_ignores_trailing_text "404" " Not Found" 404 eq_refl).
  by intros c t' [= <- <-].
Defined.

Lemma digit_value_char (d : Z) :
  0 ≤ d < 10 → digit_value (digit_char d) = Some d.
Proof.
  intros Hd.
  assert (d = 0 ∨ d = 1 ∨ d = 2 ∨ d = 3 ∨ d = 4 ∨ d = 5 ∨ d = 6 ∨ d = 7
          ∨ d = 8 ∨ d = 9) as Hcases by lia.
  by repeat destruct Hcases as [->|Hcases]; try subst d.
Qed.

Lemma digits_bound_spec (n : Z) :
  0 ≤ n → n < 2 ^ Z.of_nat (digits_bound n).
Proof.
  intros Hn. unfold digits_bound.
  rewrite Nat2Z.inj_succ, Z2Nat.id by apply Z.log2_nonneg.
  destruct (Z.eq_dec n 0) as [->|Hne]; [done|].
  apply Z.log2_spec. lia.
Qed.

Lemma decimal_step_bound (fuel : nat) (n : Z) :
  10 ≤ n → n < 2 ^ Z.of_nat (S fuel) →
  0 ≤ n / 10 ∧ n / 10 < 2 ^ Z.of_nat fuel ∧ (0 < fuel)%nat.
Proof.
  intros Hn Hfuel.
  rewrite Nat2Z.inj_succ, Z.pow_succ_r in Hfuel by lia.
  assert (0 < 2 ^ Z.of_nat fuel) by (apply Z.pow_pos_nonneg; lia).
  assert (1 ≤ n / 10) by (apply Z.div_le_lower_bound; lia).
  assert (n / 10 < 2 ^ Z.of_nat fuel)
    by (apply Z.div_lt_upper_bound; lia).
  repeat split; [lia | done |].
  destruct fuel; [|lia]. simpl in *. lia.
Qed.

(** A numeral starts with a digit. *)
Lemma decimal_first (fuel : nat) (n : Z) (acc : string) :
  0 ≤ n → (0 < fuel)%nat → n < 2 ^ Z.of_nat fuel →
  ∃ d rest, 0 ≤ d < 10 ∧ decimal fuel n acc = String (digit_char d) rest.
Proof.
  revert n acc.
  induction fuel as [|fuel IH]; intros n acc Hn Hpos Hfuel; [lia|].
  simpl. destruct (Z.ltb_spec n 10) as [Hlt|Hge].
  - exists n, acc. split; [lia | done].
  - destruct (decimal_step_bound fuel n) as (? & ? & ?); [done..|].
    by apply IH.
Qed.

(** Reading a numeral in front of [acc] shifts the digits read before and
    adds the number. *)
Lemma parse_digits_decimal (fuel : nat) (n : Z) (acc : string) :
  0 ≤ n → (0 < fuel)%nat → n < 2 ^ Z.of_nat fuel →
  ∃ k, 0 ≤ k ∧ ∀ a,
    parse_digits (decimal fuel n acc) a
    = parse_digits acc (Some (10 ^ k * default 0 a + n)).
Proof.
  revert n acc.
  induction fuel as [|fuel IH]; intros n acc Hn Hpos Hfuel; [lia|].
  simpl. destruct (Z.ltb_spec n 10) as [Hlt|Hge].
  - exists 1. split; [lia|]. intros a. simpl.
    rewrite digit_value_char by lia. do 2 f_equal; lia.
  - destruct (decimal_step_bound fuel n) as (? & ? & ?); [done..|].
    destruct (IH (n / 10) (String (digit_char (n mod 10)) acc))
      as (k & Hk & Hparse); [done..|].
    exists (Z.succ k). split; [lia|]. intros a. rewrite Hparse. simpl.
    rewrite digit_value_char by (apply Z.mod_pos_bound; lia).
    do 2 f_equal; rewrite Z.pow_succ_r by done.
    pose proof (Z.div_mod n 10). lia.
Qed.

Lemma parseInt_digit_first (d : Z) (rest : string) :
  0 ≤ d < 10 →
  parseInt (String (digit_char d) rest)
  = match parse_digits (String (digit_char d) rest) None with
    | None => NaN
    | Some m => Num m
    end.
Proof.
  intros Hd.
  assert (d = 0 ∨ d = 1 ∨ d = 2 ∨ d = 3 ∨ d = 4 ∨ d = 5 ∨ d = 6 ∨ d = 7
          ∨ d = 8 ∨ d = 9) as Hcases by lia.
  repeat destruct Hcases as [->|Hcases]; try subst d;
    unfold parseInt; simpl;
    by destruct (parse_digits rest _) as [m|]; [destruct m|].
Qed.

(** [parseInt] reads the numeral of every integer back. *)
Lemma parseInt_numeral (n : Z) : parseInt (numeral n) = Num n.
Proof.
  unfold numeral. destruct (Z.ltb_spec n 0) as [Hneg|Hpos].
  - destruct (parse_digits_decimal (digits_bound (- n)) (- n) EmptyString)
      as (k & Hk & Hparse);
      [lia | unfold digits_bound; lia | apply digits_bound_spec; lia |].
    unfold parseInt. cbn [trim_start].
    change (is_whitespace "-") with false. cbv iota.
    rewrite Hparse. cbn [parse_digits default]. f_equal. lia.
  - destruct (decimal_first (digits_bound n) n EmptyString)
      as (d & rest & Hd & Hfirst);
      [lia | unfold digits_bound; lia | by apply digits_bound_spec |].
    destruct (parse_digits_decimal (digits_bound n) n EmptyString)
      as (k & Hk & Hparse);
      [lia | unfold digits_bound; lia | by apply digits_bound_spec |].
    rewrite Hfirst, parseInt_digit_first, <- Hfirst, Hparse by done.
    cbn [parse_digits default]. f_equal. lia.
Qed.

(** X15: No range of status codes is checked: for every integer other than
    zero that a JavaScript number holds exactly (at most 2^53 in absolute
    value), a document whose override tag holds its numeral makes
    [serialize] return that integer as the status of a response with status
    200. *)
Theorem serialize_returns_any_override config url isMobile b resp r σ n :
  run (serialize config url isMobile) b = (Fulfilled r, σ) →
  serialize_response b = Some resp →
  Puppeteer.status resp = 200 →
  settles (meta_content b) = Fulfilled (Some (numeral n)) →
  n ≠ 0 →
  Z.abs n ≤ 2 ^ 53 →
  status r = n.
Proof.
  intros Hrun Hresp H200 Hmeta Hn _.
  rewrite (serialize_returned_status _ _ _ _ _ _ _ Hrun Hresp).
  unfold newStatusCode. rewrite Hmeta, or_empty_Some, parseInt_numeral.
  apply resolve_status_override; auto.
Qed.

Lemma serialize_returns_any_override_witness :
  ∃ r, (run (serialize config0 url0 false)
          (rendering 200 (succeeds (Some (numeral (-2147483648)))))).1
       = Fulfilled r
       ∧ status r = -2147483648.
Proof.
  exists {| status := -2147483648; content := page0 |}.
  split; [vm_compute; reflexivity|].
  refine (serialize_returns_any_override config0 url0 false
            (rendering 200 (succeeds (Some (numeral (-2147483648)))))
            (response_with 200) _
            (run (serialize config0 url0 false)
               (rendering 200 (succeeds (Some (numeral (-2147483648)))))).2
            (-2147483648) _ eq_refl eq_refl eq_refl _ _);
    [vm_compute; reflexivity | discriminate | vm_compute; discriminate].
Defined.

(** ** The errors raised *)

(** X16: The error [serialize] raises is the browser's error of the first of
    the operations it does not guard: opening the page, setting the
    viewport, reading the document, closing the page.  It is never a
    [ScreenshotError]. *)
Theorem serialize_raises_browser_error config url isMobile b e :
  (run (serialize config url isMobile) b).1 = Rejected e →
  ∃ e', e = BrowserError e'
        ∧ (settles (newPage b) = Rejected e'
           ∨ settles (setViewport b) = Rejected e'
           ∨ settles (outerHTML b) = Rejected e'
           ∨ settles (close b) = Rejected e').
Proof.
  rewrite serialize_result. unfold rendered_outcome, no_response_outcome.
  destruct (settles (newPage b)) as [[]|e1]; simpl;
    [|intros [= <-]; eauto].
  destruct (settles (setViewport b)) as [[]|e2]; simpl;
    [|intros [= <-]; eauto].
  destruct (serialize_response b) as [resp|]; simpl.
  - destruct (settles (outerHTML b)) as [html|e3]; simpl;
      [|intros [= <-]; eauto 6].
    destruct (settles (close b)) as [[]|e4]; simpl;
      [done | intros [= <-]; eauto 6].
  - destruct (settles (close b)) as [[]|e4]; simpl;
      [done | intros [= <-]; eauto 6].
Qed.

Lemma serialize_raises_browser_error_witness :
  ∃ e', BrowserError {| Puppeteer.reason := "Execution context was destroyed" |}
        = BrowserError e'
        ∧ (settles (newPage browser_losing_context) = Rejected e'
           ∨ settles (setViewport browser_losing_context) = Rejected e'
           ∨ settles (outerHTML browser_losing_context) = Rejected e'
           ∨ settles (close browser_losing_context) = Rejected e').
Proof.
  exact (serialize_raises_browser_error config0 url0 false
           browser_losing_context _ eq_refl).
Defined.

(** X17: The error [screenshot] raises is its [NoResponse] error, when the page
    is set up and the navigation gave no response, or the browser's error
    of opening the page, setting the viewport, capturing or closing.  The
    error of a failed navigation itself is not raised. *)
Theorem screenshot_raises url isMobile dimensions options b e :
  (run (screenshot url isMobile dimensions options) b).1 = Rejected e →
  (e = ScreenshotErr (new_ScreenshotError NoResponse)
   ∧ settles (newPage b) = Fulfilled ()
   ∧ settles (setViewport b) = Fulfilled ()
   ∧ screenshot_response b = None)
  ∨ ∃ e', e = BrowserError e'
          ∧ (settles (newPage b) = Rejected e'
             ∨ settles (setViewport b) = Rejected e'
             ∨ settles (capture b) = Rejected e'
             ∨ settles (close b) = Rejected e').
Proof.
  rewrite screenshot_result.
  destruct (settles (newPage b)) as [[]|e1]; simpl;
    [|intros [= <-]; eauto 10].
  destruct (settles (setViewport b)) as [[]|e2]; simpl;
    [|intros [= <-]; eauto 10].
  destruct (screenshot_response b) as [resp|]; simpl;
    [|intros [= <-]; eauto 10].
  destruct (settles (capture b)) as [buffer|e3]; simpl;
    [|intros [= <-]; eauto 10].
  destruct (settles (close b)) as [[]|e4]; simpl;
    [done | intros [= <-]; eauto 10].
Qed.

Lemma screenshot_raises_witness :
  (ScreenshotErr (new_ScreenshotError NoResponse)
   = ScreenshotErr (new_ScreenshotError NoResponse)
   ∧ settles (newPage (browser_with timeout_after_event no_meta))
     = Fulfilled ()
   ∧ settles (setViewport (browser_with timeout_after_event no_meta))
     = Fulfilled ()
   ∧ screenshot_response (browser_with timeout_after_event no_meta) = None)
  ∨ ∃ e', ScreenshotErr (new_ScreenshotError NoResponse) = BrowserError e'
          ∧ (settles (newPage (browser_with timeout_after_event no_meta))
             = Rejected e'
             ∨ settles (setViewport (browser_with timeout_after_event no_meta))
               = Rejected e'
             ∨ settles (capture (browser_with timeout_after_event no_meta))
               = Rejected e'
             ∨ settles (close (browser_with timeout_after_event no_meta))
               = Rejected e').
Proof.
  exact (screenshot_raises url0 false dimensions0 None
           (browser_with timeout_after_event no_meta) _ eq_refl).
Defined.
